(** * pacemaker_cluster: a shallow embedding of
      plugins/modules/clustering/pacemaker_cluster.py

    The module drives a pacemaker cluster through the [pcs] command line.
    Its functions are embedded as computations in a small monad that
    threads the list of commands run so far and the number of clock
    readings taken, and that ends either with a value, with one of the two
    ways an Ansible module leaves ([exit_json], [fail_json]) or with a
    Python exception.  The outside world (what each command answers, what
    the clock shows) is a parameter of every run.

    [get_cluster_configuration] and [ClusterConfiguration] are called by
    no function of the module and are left out. *)

From Stdlib Require Import String Ascii List ZArith Bool Arith Lia SpecFloat.
Import ListNotations.
Local Open Scope nat_scope.
Local Open Scope string_scope.

(** ** Python strings

    A [str] is modelled as a [string] whose characters are the code points
    0..255.  The string methods the module uses are written out for that
    range. *)

Module PyStr.

Definition code (c : ascii) : nat := nat_of_ascii c.

(** [str.isspace] on one character: TAB..CR, FS..US, space, NEL, NBSP. *)
Definition is_space (c : ascii) : bool :=
  let n := code c in
  (((9 <=? n) && (n <=? 13)) || ((28 <=? n) && (n <=? 32))
   || (n =? 133) || (n =? 160))%nat.

(** Line boundaries of [str.splitlines], apart from CR which pairs with LF. *)
Definition is_linebreak (c : ascii) : bool :=
  let n := code c in
  ((n =? 10) || (n =? 11) || (n =? 12) || (n =? 28) || (n =? 29)
   || (n =? 30) || (n =? 133))%nat.

Definition lower_char (c : ascii) : ascii :=
  let n := code c in
  if (((65 <=? n) && (n <=? 90))
      || ((192 <=? n) && (n <=? 222) && negb (n =? 215)))%nat
  then ascii_of_nat (n + 32) else c.

Fixpoint lower (s : string) : string :=
  match s with
  | EmptyString => EmptyString
  | String c s' => String (lower_char c) (lower s')
  end.

Fixpoint lstrip (s : string) : string :=
  match s with
  | EmptyString => EmptyString
  | String c s' => if is_space c then lstrip s' else s
  end.

Fixpoint rstrip (s : string) : string :=
  match s with
  | EmptyString => EmptyString
  | String c s' =>
      let r := rstrip s' in
      if is_space c && (r =? "") then "" else String c r
  end.

(** [s.strip()] *)
Definition strip (s : string) : string := rstrip (lstrip s).

(** [sub in s]: [sub] occurs in [s] as a contiguous run of characters. *)
Fixpoint contains (s sub : string) : bool :=
  String.prefix sub s
  || match s with
     | EmptyString => false
     | String _ s' => contains s' sub
     end.

Definition snoc (s : string) (c : ascii) : string := s ++ String c "".

(** [s.split(sep)] for a separator of one character. *)
Fixpoint split_from (sep : ascii) (cur s : string) : list string :=
  match s with
  | EmptyString => [cur]
  | String c s' =>
      if Ascii.eqb c sep then cur :: split_from sep "" s'
      else split_from sep (snoc cur c) s'
  end.

Definition split (sep : ascii) (s : string) : list string :=
  split_from sep "" s.

(** [s.splitlines()]: the text after the last boundary is a line only when
    it is not empty. *)
Fixpoint splitlines_from (cur s : string) : list string :=
  match s with
  | EmptyString => if cur =? "" then [] else [cur]
  | String c s' =>
      if Ascii.eqb c "013" then
        match s' with
        | String "010" s'' => cur :: splitlines_from "" s''
        | _ => cur :: splitlines_from "" s'
        end
      else if is_linebreak c then cur :: splitlines_from "" s'
      else splitlines_from (snoc cur c) s'
  end.

Definition splitlines (s : string) : list string := splitlines_from "" s.

Definition nl : string := String "010" "".

End PyStr.

(** ** Python floats

    A [float] is a binary64 number of IEEE 754: 53 bits of precision,
    results rounded to nearest, ties to even. *)

Module PyFloat.

Definition prec : Z := 53%Z.
Definition emax : Z := 1024%Z.

Definition float : Type := spec_float.

(** The double nearest to [m * 2 ^ e]. *)
Definition of_scaled (me : Z * Z) : float :=
  binary_normalize prec emax (fst me) (snd me) false.

(** The conversion of an int that [float + int] performs; [None] stands
    for OverflowError, raised when the int is beyond the doubles. *)
Definition of_int (n : Z) : option float :=
  match binary_normalize prec emax n 0%Z false with
  | S754_infinity _ => None
  | x => Some x
  end.

(** [x + y] *)
Definition add (x y : float) : float := SFadd prec emax x y.

(** [x < y] *)
Definition lt (x y : float) : bool := SFltb x y.

End PyFloat.

(** ** Values, outcomes and the world *)

(** The Python values that are passed around untyped. *)
#[local] Set Warnings "-register-all".
Inductive PyVal : Type :=
| VNone
| VBool (b : bool)
| VInt (z : Z)
| VStr (s : string)
| VList (l : list PyVal)
| VDict (d : list (string * PyVal)).

Inductive PyExc : Type :=
  TypeError | IndexError | UnboundLocalError | OverflowError.

(** What [exit_json] reports under [out]: the cluster state, or the table
    of node statuses. *)
Inductive Out : Type :=
| OutState (s : string)
| OutNodes (l : list (list string)).

(** How a computation ends. [Diverge] stands for a polling loop that has
    not finished within the fuel given. *)
Inductive Outcome (A : Type) : Type :=
| Ret (a : A)
| ExitJson (changed : bool) (out : Out)
| FailJson (msg : string)
| Raise (e : PyExc)
| Diverge.
Arguments Ret {A} a.
Arguments ExitJson {A} changed out.
Arguments FailJson {A} msg.
Arguments Raise {A} e.
Arguments Diverge {A}.

(** [rc, out, err] of [module.run_command]. *)
Record CmdResult : Type := mkCmdResult
  { rc : Z; out : string; err : string }.

(** The world: [respond n cmd] is the answer to command [cmd] when [n]
    commands have been run before it; [clock k] gives what [time.time()]
    shows at its [k]-th reading, as a pair [(m, e)] that stands for the
    double nearest to [m * 2 ^ e] seconds (every double is of this form). *)
Record Env : Type := mkEnv
  { respond : nat -> string -> CmdResult;
    clock : nat -> Z * Z }.

(** The [k]-th reading of the clock. *)
Definition reading (e : Env) (k : nat) : PyFloat.float :=
  PyFloat.of_scaled (clock e k).

Record St : Type := mkSt
  { trace : list string;   (* commands run, oldest first *)
    ticks : nat }.         (* clock readings taken *)

Definition st0 : St := mkSt [] 0.

(** The state after one more command. *)
Definition ran (cmd : string) (s : St) : St :=
  mkSt (trace s ++ [cmd]) (ticks s).

(** The state after one more clock reading. *)
Definition tick (s : St) : St := mkSt (trace s) (S (ticks s)).

Definition M (A : Type) : Type := Env -> St -> St * Outcome A.

Definition ret {A} (a : A) : M A := fun _ s => (s, Ret a).

Definition bind {A B} (m : M A) (k : A -> M B) : M B :=
  fun e s =>
    match m e s with
    | (s', Ret a) => k a e s'
    | (s', ExitJson c o) => (s', ExitJson c o)
    | (s', FailJson msg) => (s', FailJson msg)
    | (s', Raise x) => (s', Raise x)
    | (s', Diverge) => (s', Diverge)
    end.

Declare Scope py_scope.
Delimit Scope py_scope with py.
Notation "x <- m ;; k" := (bind m (fun x => k))
  (at level 100, m at next level, right associativity) : py_scope.
Notation "m ;; k" := (bind m (fun _ => k))
  (at level 100, right associativity) : py_scope.
Local Open Scope py_scope.

Definition lift {A} (o : Outcome A) : M A := fun _ s => (s, o).
Definition raise {A} (x : PyExc) : M A := lift (Raise x).
Definition exit_json {A} (changed : bool) (o : Out) : M A :=
  lift (ExitJson changed o).
Definition fail_json {A} (msg : string) : M A := lift (FailJson msg).
Definition diverge {A} : M A := lift Diverge.

(** [module.run_command(cmd)] *)
Definition run_command (cmd : string) : M CmdResult :=
  fun e s => (ran cmd s, Ret (respond e (length (trace s)) cmd)).

(** [time.time()] *)
Definition time_time : M PyFloat.float :=
  fun e s => (tick s, Ret (reading e (ticks s))).

(** [for x in l: body]; leaving the module or raising inside the body ends
    the loop. *)
Fixpoint for_each {A} (l : list A) (body : A -> M unit) : M unit :=
  match l with
  | [] => ret tt
  | x :: l' => body x ;; for_each l' body
  end.

(** [l[i]] *)
Definition index {A} (l : list A) (i : nat) : M A :=
  match nth_error l i with
  | Some x => ret x
  | None => raise IndexError
  end.

(** A call with positional arguments only, to a def without defaults:
    Python raises TypeError before the body runs unless as many arguments
    are given as the def has parameters. *)
Definition call_def {A} (nparams nargs : nat) (body : M A) : M A :=
  if Nat.eqb nargs nparams then body else raise TypeError.

(** ** The module *)

Definition _PCS_CLUSTER_DOWN : string :=
  "Error: cluster is not currently running on this node".

(** [get_cluster_status(module)] *)
Definition get_cluster_status : M string :=
  r <- run_command "pcs cluster status" ;;
  if PyStr.contains _PCS_CLUSTER_DOWN (out r) then ret "offline"
  else ret "online".

Definition command_failed (cmd err : string) : string :=
  "Command execution failed." ++ PyStr.nl ++ "Command: `" ++ cmd ++ "`"
  ++ PyStr.nl ++ "Error: " ++ err.

Definition state_not_set (state : string) : string :=
  "Failed to set the state `" ++ state ++ "` on the cluster" ++ PyStr.nl.

(** [if rc == 1: module.fail_json(...)] *)
Definition check_rc (cmd : string) (r : CmdResult) : M unit :=
  if (rc r =? 1)%Z then fail_json (command_failed cmd (err r)) else ret tt.

(** The command of [get_node_status]: the node is named when it is 'all'. *)
Definition get_node_status_cmd (node : string) : string :=
  if node =? "all" then "pcs cluster pcsd-status " ++ node
  else "pcs cluster pcsd-status".

(** The table [get_node_status] builds from the output: one row per line,
    the line cut at its colons. *)
Definition node_table (text : string) : list (list string) :=
  map (PyStr.split ":") (PyStr.splitlines text).

(** [get_node_status(module, node='all')] *)
Definition get_node_status (node : string) : M (list (list string)) :=
  let cmd := get_node_status_cmd node in
  r <- run_command cmd ;;
  check_rc cmd r ;;
  ret (node_table (out r)).

(** [clean_cluster(module, timeout)] *)
Definition clean_cluster (timeout : Z) : M unit :=
  let cmd := "pcs resource cleanup" in
  r <- run_command cmd ;;
  check_rc cmd r.

(** Reading a local variable that no branch has assigned. *)
Definition local (v : option string) : M string :=
  match v with
  | Some x => ret x
  | None => raise UnboundLocalError
  end.

(** [now < t + timeout], [now] being what [time.time()] has returned:
    [timeout] is converted to a double, added to [t] and the sum compared
    with [now]; [None] stands for the OverflowError of the conversion. *)
Definition before_deadline (now t : PyFloat.float) (timeout : Z)
  : option bool :=
  match PyFloat.of_int timeout with
  | Some d => Some (PyFloat.lt now (PyFloat.add t d))
  | None => None
  end.

(** The test of the two [while] loops, once the clock has been read. *)
Definition check_deadline (now t : PyFloat.float) (timeout : Z) : M bool :=
  match before_deadline now t timeout with
  | Some b => ret b
  | None => raise OverflowError
  end.

(** The [while] loop of [set_cluster]; the value is [ready] at its end. *)
Fixpoint set_cluster_poll (fuel : nat) (state : string) (t : PyFloat.float)
  (timeout : Z) : M bool :=
  match fuel with
  | O => diverge
  | S fuel' =>
      now <- time_time ;;
      before <- check_deadline now t timeout ;;
      if before then
        cluster_state <- get_cluster_status ;;
        if cluster_state =? state then ret true
        else set_cluster_poll fuel' state t timeout
      else ret false
  end.

(** [set_cluster(module, state, timeout, force)] *)
Definition set_cluster (fuel : nat) (state : string) (timeout : Z)
  (force : bool) : M unit :=
  cmd <- (if state =? "online" then
            current_status <- get_cluster_status ;;
            (if negb (current_status =? state) then
               _ <- run_command "pcs" ;; ret tt
             else ret tt) ;;
            ret (Some "pcs cluster start")
          else ret None) ;;
  let cmd := if state =? "offline" then
               if force then Some ("pcs cluster stop" ++ " --force")
               else Some "pcs cluster stop"
             else cmd in
  cmd <- local cmd ;;
  r <- run_command cmd ;;
  check_rc cmd r ;;
  t <- time_time ;;
  ready <- set_cluster_poll fuel state t timeout ;;
  if negb ready then fail_json (state_not_set state) else ret tt.

(** The first [for] loop of [set_node]: [cmd] is a local of the function,
    assigned in the loop body and read again by the next iteration. *)
Fixpoint set_node_dispatch (state : string) (cmd : option string)
  (nodes_state : list (list string)) : M unit :=
  match nodes_state with
  | [] => ret tt
  | node :: rest =>
      status <- index node 1 ;;
      if negb (PyStr.lower (PyStr.strip status) =? state) then
        c <- local cmd ;;
        name <- index node 0 ;;
        let cmd := c ++ " " ++ PyStr.strip name in
        r <- run_command cmd ;;
        check_rc cmd r ;;
        set_node_dispatch state (Some cmd) rest
      else set_node_dispatch state cmd rest
  end.

(** The [for] loop inside the polling loop of [set_node]: it sets [ready]
    and leaves at the first node in the wanted state. *)
Fixpoint set_node_scan (state : string) (ready : bool)
  (nodes_state : list (list string)) : M bool :=
  match nodes_state with
  | [] => ret ready
  | node :: rest =>
      status <- index node 1 ;;
      if PyStr.lower (PyStr.strip status) =? state then ret true
      else set_node_scan state ready rest
  end.

(** The [while] loop of [set_node]; the value is [ready] at its end. *)
Fixpoint set_node_poll (fuel : nat) (state : string) (t : PyFloat.float)
  (timeout : Z) (ready : bool) : M bool :=
  match fuel with
  | O => diverge
  | S fuel' =>
      now <- time_time ;;
      before <- check_deadline now t timeout ;;
      if before then
        nodes_state <- get_node_status "all" ;;
        ready <- set_node_scan state ready nodes_state ;;
        set_node_poll fuel' state t timeout ready
      else ret ready
  end.

(** [set_node(module, state, timeout, force, node='all')] *)
Definition set_node (fuel : nat) (state : string) (timeout : Z)
  (force : bool) (node : string) : M unit :=
  let cmd := if state =? "online" then Some "pcs cluster start" else None in
  let cmd := if state =? "offline" then
               if force then Some ("pcs cluster stop" ++ " --force")
               else Some "pcs cluster stop"
             else cmd in
  nodes_state <- get_node_status node ;;
  set_node_dispatch state cmd nodes_state ;;
  t <- time_time ;;
  ready <- set_node_poll fuel state t timeout false ;;
  if negb ready then fail_json (state_not_set state) else ret tt.

(** ** Builtins called by [main] *)

(** The builtin [dict] called with keyword arguments only. *)
Definition py_dict (kwargs : list (string * PyVal)) : M PyVal :=
  ret (VDict kwargs).

Fixpoint chars (s : string) : list PyVal :=
  match s with
  | EmptyString => []
  | String c s' => VStr (String c "") :: chars s'
  end.

(** The builtin [list]: the constructor takes at most one positional
    argument, which must be iterable, and no keyword argument. *)
Definition py_list (args : list PyVal) (kwargs : list (string * PyVal))
  : M PyVal :=
  match kwargs with
  | _ :: _ => raise TypeError
  | [] =>
      match args with
      | [] => ret (VList [])
      | [VList l] => ret (VList l)
      | [VStr s] => ret (VList (chars s))
      | [VDict d] => ret (VList (map (fun kv => VStr (fst kv)) d))
      | _ => raise TypeError
      end
  end.

(** [module.params] *)
Record Params : Type := mkParams
  { p_state : option string;
    p_node : option string;
    p_timeout : Z;
    p_force : bool;
    p_members : PyVal }.

(** The [argument_spec = dict(...)] statement of [main]: the keyword
    arguments are evaluated from left to right, then [dict] is called. *)
Definition argument_spec : M PyVal :=
  state <- py_dict [("type", VStr "str");
                    ("choices", VList [VStr "online"; VStr "offline";
                                       VStr "restart"; VStr "cleanup"])] ;;
  node <- py_dict [("type", VStr "str")] ;;
  timeout <- py_dict [("type", VStr "int"); ("default", VInt 300)] ;;
  force <- py_dict [("type", VStr "bool"); ("default", VBool true)] ;;
  members <- py_list [] [("type", VStr "bool"); ("elements", VStr "str")] ;;
  py_dict [("state", state); ("node", node); ("timeout", timeout);
           ("force", force); ("members", members)].

(** [if state in choices: body], [state] being [None] or a string. *)
Definition when_in (state : option string) (choices : list string)
  (body : string -> M unit) : M unit :=
  match state with
  | Some s => if existsb (String.eqb s) choices then body s else ret tt
  | None => ret tt
  end.

Definition cannot_stop : string :=
  "Failed during the restart of the cluster, the cluster can't be stopped".
Definition cannot_start : string :=
  "Failed during the restart of the cluster, the cluster can't be started".

(** Number of parameters of [def set_cluster(module, state, timeout, force)]. *)
Definition set_cluster_nparams : nat := 4.

(** [main] from [changed = False] to its end, on the parameters of the
    module that has been constructed. *)
Definition main_body (fuel : nat) (p : Params) : M unit :=
  let changed := false in
  let state := p_state p in
  let node := p_node p in
  let force := p_force p in
  let timeout := p_timeout p in
  when_in state ["online"; "offline"] (fun state =>
    match node with
    | None =>
        cluster_state <- get_cluster_status ;;
        if cluster_state =? state then
          exit_json changed (OutState cluster_state)
        else
          (* set_cluster(module, state, timeout, members, force) *)
          call_def set_cluster_nparams 5
            (set_cluster fuel state timeout force) ;;
          cluster_state <- get_cluster_status ;;
          if cluster_state =? state then
            exit_json true (OutState cluster_state)
          else fail_json ("Fail to bring the cluster " ++ state)
    | Some node =>
        cluster_state <- get_node_status node ;;
        for_each cluster_state (fun node_state =>
          status <- index node_state 1 ;;
          if PyStr.lower (PyStr.strip status) =? state then
            exit_json changed (OutNodes cluster_state)
          else
            call_def set_cluster_nparams 4
              (set_cluster fuel state timeout force) ;;
            cluster_state <- get_node_status node ;;
            exit_json true (OutNodes cluster_state))
    end) ;;
  when_in state ["restart"] (fun _ =>
    call_def set_cluster_nparams 4 (set_cluster fuel "offline" timeout force) ;;
    cluster_state <- get_cluster_status ;;
    if cluster_state =? "offline" then
      call_def set_cluster_nparams 4
        (set_cluster fuel "online" timeout force) ;;
      cluster_state <- get_cluster_status ;;
      if cluster_state =? "online" then
        exit_json true (OutState cluster_state)
      else fail_json cannot_start
    else fail_json cannot_stop) ;;
  when_in state ["cleanup"] (fun _ =>
    clean_cluster timeout ;;
    cluster_state <- get_cluster_status ;;
    exit_json true (OutState cluster_state)).

(** [main()].  [AnsibleModule] is the constructor of the Ansible library:
    from the argument specification it yields the parameters of the
    invocation, or fails. *)
Definition main (AnsibleModule : PyVal -> M Params) (fuel : nat) : M unit :=
  argument_spec <- argument_spec ;;
  p <- AnsibleModule argument_spec ;;
  main_body fuel p.

(** ** Worlds used in the examples *)

(** A world whose answers depend on the command only and whose clock
    advances by one second at each reading. *)
Definition steady (answer : string -> CmdResult) : Env :=
  mkEnv (fun _ cmd => answer cmd) (fun k => (Z.of_nat k, 0%Z)).

Definition ok (text : string) : CmdResult := mkCmdResult 0 text "".

(** [pcs cluster status] prints [status], every other command prints
    [nodes]; all commands end with status 0. *)
Definition cluster_world (status nodes : string) : Env :=
  steady (fun cmd => if cmd =? "pcs cluster status" then ok status
                     else ok nodes).


(** Outputs of [pcs cluster pcsd-status] used in the examples. *)
Definition node2_online : string :=
  "  node1: Offline" ++ PyStr.nl ++ "  node2: Online" ++ PyStr.nl.
Definition node1_online : string :=
  "  node1: Online" ++ PyStr.nl ++ "  node2: Offline" ++ PyStr.nl.
Definition node3_online : string :=
  "  node1: Offline" ++ PyStr.nl ++ "  node2: Offline" ++ PyStr.nl
  ++ "  node3: Online" ++ PyStr.nl.
Definition nodes_offline : string :=
  "  node1: Offline" ++ PyStr.nl ++ "  node2: Offline" ++ PyStr.nl.

(** A request with the default [force] and no [members]. *)
Definition request (state node : option string) (timeout : Z) : Params :=
  mkParams state node timeout true VNone.

(** The world [e] with the exit status and the error text of every command
    replaced. *)
Definition with_rc_err (e : Env) (rc' : nat -> string -> Z)
  (err' : nat -> string -> string) : Env :=
  mkEnv (fun n cmd => mkCmdResult (rc' n cmd) (out (respond e n cmd))
                        (err' n cmd))
        (clock e).


(** The row has a status field and it is not [state]. *)
Definition row_differs (state : string) (row : list string) : bool :=
  match nth_error row 1 with
  | Some status => negb (PyStr.lower (PyStr.strip status) =? state)
  | None => false
  end.

(** Every probe of the nodes succeeds and shows no node in [state]. *)
Definition nodes_never (state : string) (e : Env) : Prop :=
  forall node s, exists tbl,
    snd (get_node_status node e s) = Ret tbl
    /\ forallb (row_differs state) tbl = true.

(** The first phase of a restart: stop the cluster, then probe it. *)
Definition offline_phase (fuel : nat) (p : Params) : M string :=
  call_def set_cluster_nparams 4
    (set_cluster fuel "offline" (p_timeout p) (p_force p)) ;;
  get_cluster_status.



Definition stop_cmd (force : bool) : string :=
  if force then "pcs cluster stop --force" else "pcs cluster stop".



(** The second phase of a restart: start the cluster, probe it and leave. *)
Definition online_phase (fuel : nat) (p : Params) : M unit :=
  call_def set_cluster_nparams 4
    (set_cluster fuel "online" (p_timeout p) (p_force p)) ;;
  cluster_state <- get_cluster_status ;;
  if cluster_state =? "online" then exit_json true (OutState cluster_state)
  else fail_json cannot_start.

(** ** Notions used in the further properties *)

(** What [get_cluster_status] answers when its query is the [n]-th
    command of the run. *)
Definition cluster_state_at (e : Env) (n : nat) : string :=
  if PyStr.contains _PCS_CLUSTER_DOWN (out (respond e n "pcs cluster status"))
  then "offline" else "online".

(** The command [set_cluster] runs to change the state. *)
Definition transition_cmd (state : string) (force : bool) : string :=
  if state =? "online" then "pcs cluster start" else stop_cmd force.

(** A world that answers by position: the [n]-th command of the run gets
    the [n]-th answer of the script, later ones an empty success; the clock
    advances by one second at each reading. *)
Definition scripted (answers : list CmdResult) : Env :=
  mkEnv (fun n _ => nth n answers (ok "")) (fun k => (Z.of_nat k, 0%Z)).

(** The row has a status field and it is [state]. *)
Definition row_matches (state : string) (row : list string) : bool :=
  match nth_error row 1 with
  | Some status => PyStr.lower (PyStr.strip status) =? state
  | None => false
  end.

(** The row has a status field. *)
Definition has_status (row : list string) : bool :=
  match nth_error row 1 with
  | Some _ => true
  | None => false
  end.

(** The names, stripped, of the rows whose status is not [state]. *)
Definition differing_names (state : string) (tbl : list (list string))
  : list string :=
  map (fun row => PyStr.strip (hd "" row)) (filter (row_differs state) tbl).

(** The commands built by appending one name after the other to [cmd]. *)
Fixpoint accumulate (cmd : string) (names : list string) : list string :=
  match names with
  | [] => []
  | name :: rest => (cmd ++ " " ++ name) :: accumulate (cmd ++ " " ++ name) rest
  end.

(** Occurrences of a character in a string. *)
Fixpoint count_char (c : ascii) (s : string) : nat :=
  match s with
  | EmptyString => 0
  | String c' s' => (if Ascii.eqb c' c then 1 else 0) + count_char c s'
  end.

(** The table of the probe of [node] run in state [s]. *)
Definition probed_table (e : Env) (s : St) (node : string)
  : list (list string) :=
  node_table (out (respond e (length (trace s)) (get_node_status_cmd node))).

(** Every probe of the nodes shows at least one node, and all nodes in
    [state]. *)
Definition nodes_always (state : string) (e : Env) : Prop :=
  forall node n,
    node_table (out (respond e n (get_node_status_cmd node))) <> []
    /\ forallb (row_matches state)
         (node_table (out (respond e n (get_node_status_cmd node)))) = true.

(** A world in which the command [refused] ends with status 1 and the
    error text [why], and every other command succeeds without output. *)
Definition refusing (refused why : string) : Env :=
  steady (fun cmd => if cmd =? refused then mkCmdResult 1 "" why else ok "").

(** Outputs of [pcs cluster pcsd-status] used in further examples. *)
Definition nodes_online : string :=
  "  node1: Online" ++ PyStr.nl ++ "  node2: Online" ++ PyStr.nl.

(** A world without output whose clock shows 0.2, then 1.2, then 5
    seconds: the doubles 0x1.999999999999ap-3 and 0x1.3333333333333p+0,
    and 5. *)
Definition decimal_clock : Env :=
  mkEnv (fun _ _ => ok "")
        (fun k => nth k [(7205759403792794, -55); (5404319552844595, -52)]
                    (5, 0))%Z.

(** A world in which a restart goes well: the cluster is seen offline
    after the stop command and online after the start command. *)
Definition restart_world : Env :=
  scripted [ok ""; ok ""; ok ""; ok ""; ok ""; ok "";
            ok "Cluster name: ha"; ok "Cluster name: ha"].

(** A world in which the cluster is still seen running at the first two
    probes after the first command, and down from then on. *)
Definition stopping_world : Env :=
  scripted [ok ""; ok "Cluster name: ha"; ok "Cluster name: ha"].

(** ** Running a computation step by step *)

Arguments PyStr.contains : simpl never.

Lemma bind_ret_eq A B (m : M A) (k : A -> M B) e s s' a :
  m e s = (s', Ret a) -> bind m k e s = k a e s'.
Proof. unfold bind. now intros ->. Qed.

Lemma bind_fail_eq A B (m : M A) (k : A -> M B) e s s' msg :
  m e s = (s', FailJson msg) -> bind m k e s = (s', FailJson msg).
Proof. unfold bind. now intros ->. Qed.

Lemma bind_raise_eq A B (m : M A) (k : A -> M B) e s s' x :
  m e s = (s', Raise x) -> bind m k e s = (s', Raise x).
Proof. unfold bind. now intros ->. Qed.


Lemma bind_assoc A B C (m : M A) (k : A -> M B) (h : B -> M C) e s :
  bind (bind m k) h e s = bind m (fun a => bind (k a) h) e s.
Proof. unfold bind. destruct (m e s) as [s' [a| | | |]]; reflexivity. Qed.

Lemma bind_ret_tt (m : M unit) e s : bind m (fun _ => ret tt) e s = m e s.
Proof. unfold bind. destruct (m e s) as [s' [[]| | | |]]; reflexivity. Qed.

Lemma run_command_eq cmd e s :
  run_command cmd e s = (ran cmd s, Ret (respond e (length (trace s)) cmd)).
Proof. reflexivity. Qed.

Lemma time_time_eq e s : time_time e s = (tick s, Ret (reading e (ticks s))).
Proof. reflexivity. Qed.

Lemma ran_ticks cmd s : ticks (ran cmd s) = ticks s.
Proof. reflexivity. Qed.

Lemma check_rc_ok (e : Env) (cmd : string) (r : CmdResult) (s : St) :
  rc r <> 1%Z -> check_rc cmd r e s = (s, Ret tt).
Proof.
  intros H. unfold check_rc.
  destruct (Z.eqb_spec (rc r) 1); [contradiction | reflexivity].
Qed.

Lemma check_rc_failed (e : Env) (cmd : string) (r : CmdResult) (s : St) :
  rc r = 1%Z -> check_rc cmd r e s = (s, FailJson (command_failed cmd (err r))).
Proof. intros H. unfold check_rc. now rewrite H. Qed.

Lemma call_def_arity A (n : nat) (body : M A) : call_def n n body = body.
Proof. unfold call_def. now rewrite Nat.eqb_refl. Qed.

(** [get_cluster_status] runs one query and answers 'offline' exactly when
    the output occurs in the marker. *)
Lemma get_cluster_status_eq (e : Env) (s : St) :
  get_cluster_status e s =
  (ran "pcs cluster status" s,
   Ret (if PyStr.contains _PCS_CLUSTER_DOWN
             (out (respond e (length (trace s)) "pcs cluster status"))
        then "offline" else "online")).
Proof.
  unfold get_cluster_status, bind, run_command, ran.
  cbv beta iota.
  now destruct (PyStr.contains _PCS_CLUSTER_DOWN _).
Qed.

Lemma get_node_status_eq (node : string) (e : Env) (s : St) :
  rc (respond e (length (trace s)) (get_node_status_cmd node)) <> 1%Z ->
  get_node_status node e s
  = (ran (get_node_status_cmd node) s,
     Ret (node_table
            (out (respond e (length (trace s)) (get_node_status_cmd node))))).
Proof.
  intros Hrc. unfold get_node_status.
  erewrite bind_ret_eq by apply run_command_eq.
  erewrite bind_ret_eq by (apply check_rc_ok; exact Hrc).
  reflexivity.
Qed.

Lemma argument_spec_raises (e : Env) (s : St) :
  argument_spec e s = (s, Raise TypeError).
Proof. reflexivity. Qed.


Ltac run_step :=
  first
    [ rewrite bind_assoc
    | erewrite bind_ret_eq by
        first [ apply get_cluster_status_eq
              | apply run_command_eq
              | apply time_time_eq
              | apply check_rc_ok; solve [auto]
              | reflexivity ] ].

(** ** Commands run by a call *)




(** ** Polling until the deadline *)

Lemma check_deadline_eq now t timeout b e s :
  before_deadline now t timeout = Some b ->
  check_deadline now t timeout e s = (s, Ret b).
Proof. unfold check_deadline. now intros ->. Qed.

Lemma check_deadline_overflow now t timeout e s :
  before_deadline now t timeout = None ->
  check_deadline now t timeout e s = (s, Raise OverflowError).
Proof. unfold check_deadline. now intros ->. Qed.

(** Whether the test raises depends on [timeout] only. *)
Lemma before_deadline_defined now t timeout b now' t' :
  before_deadline now t timeout = Some b ->
  exists b', before_deadline now' t' timeout = Some b'.
Proof.
  unfold before_deadline. destruct (PyFloat.of_int timeout); [eauto|discriminate].
Qed.

Section Deadline.

Variable e : Env.
Variable state : string.
Variable t : PyFloat.float.
Variable timeout : Z.

(** No command ends with status 1. *)
Hypothesis Hrc : forall n cmd, rc (respond e n cmd) <> 1%Z.

(** When no probe shows [state] and the clock reaches the deadline at the
    [k]-th reading from now, the loop of [set_cluster] ends with [ready]
    false, given fuel for more than [k] rounds. *)
Lemma set_cluster_poll_timeout :
  (forall s', snd (get_cluster_status e s') <> Ret state) ->
  forall (k fuel : nat) (s : St),
    k < fuel ->
    before_deadline (reading e (ticks s + k)) t timeout = Some false ->
    exists s', set_cluster_poll fuel state t timeout e s = (s', Ret false).
Proof.
  intros Hnever k.
  induction k as [|k IH]; intros fuel s Hlt Hdead;
    (destruct fuel as [|fuel]; [lia|]);
    cbn [set_cluster_poll];
    rewrite (bind_ret_eq _ _ _ _ _ _ _ _ (time_time_eq e s)).
  - rewrite Nat.add_0_r in Hdead.
    erewrite bind_ret_eq by (apply check_deadline_eq; exact Hdead).
    eexists; reflexivity.
  - destruct (before_deadline_defined _ _ _ _ (reading e (ticks s)) t Hdead)
      as [b Hb].
    erewrite bind_ret_eq by (apply check_deadline_eq; exact Hb).
    destruct b; [|eexists; reflexivity].
    erewrite bind_ret_eq by apply get_cluster_status_eq.
    pose proof (Hnever (tick s)) as Hn.
    rewrite get_cluster_status_eq in Hn. cbn [snd] in Hn.
    match goal with |- context [?r =? state] =>
      assert (Hneq : (r =? state) = false)
        by (apply String.eqb_neq; congruence);
      rewrite Hneq
    end.
    apply IH; [lia|].
    rewrite ran_ticks. cbn [tick ticks].
    now replace (S (ticks s) + k) with (ticks s + S k) by lia.
Qed.


(** When every row differs from [state], [set_node] runs a command for
    every row and takes no clock reading meanwhile. *)
Lemma set_node_dispatch_all :
  forall (tbl : list (list string)) (c : string) (s : St),
    forallb (row_differs state) tbl = true ->
    exists s', set_node_dispatch state (Some c) tbl e s = (s', Ret tt)
               /\ ticks s' = ticks s.
Proof.
  induction tbl as [|row tbl IH]; intros c s Hall.
  - exists s. split; reflexivity.
  - cbn [forallb] in Hall. apply andb_prop in Hall as [Hrow Htbl].
    unfold row_differs in Hrow.
    destruct row as [|name [|status row]]; try discriminate.
    cbn [nth_error] in Hrow.
    cbn [set_node_dispatch]. unfold index. cbn [nth_error].
    erewrite bind_ret_eq by reflexivity. rewrite Hrow.
    unfold local. repeat run_step.
    destruct (IH (c ++ " " ++ PyStr.strip name)
                 (ran (c ++ " " ++ PyStr.strip name) s) Htbl)
      as [s' [Hs' Ht]].
    exists s'. split; [exact Hs' | now rewrite Ht].
Qed.

Lemma set_node_scan_none (ready : bool) (s : St) (tbl : list (list string)) :
  forallb (row_differs state) tbl = true ->
  set_node_scan state ready tbl e s = (s, Ret ready).
Proof.
  induction tbl as [|row tbl IH]; intros Hall; [reflexivity|].
  cbn [forallb] in Hall. apply andb_prop in Hall as [Hrow Htbl].
  unfold row_differs in Hrow.
  destruct row as [|name [|status row]]; try discriminate.
  cbn [nth_error] in Hrow. apply negb_true_iff in Hrow.
  cbn [set_node_scan]. unfold index. cbn [nth_error].
  erewrite bind_ret_eq by reflexivity. rewrite Hrow. now apply IH.
Qed.

Lemma nodes_never_probe (node : string) (s : St) :
  nodes_never state e ->
  exists tbl, get_node_status node e s
              = (ran (get_node_status_cmd node) s, Ret tbl)
              /\ forallb (row_differs state) tbl = true.
Proof.
  intros Hnever.
  destruct (Hnever node s) as [tbl [Htbl Hall]].
  rewrite get_node_status_eq in * by apply Hrc.
  cbn [snd] in Htbl. injection Htbl as <-. eauto.
Qed.

Lemma set_node_poll_timeout :
  nodes_never state e ->
  forall (k fuel : nat) (s : St),
    k < fuel ->
    before_deadline (reading e (ticks s + k)) t timeout = Some false ->
    exists s', set_node_poll fuel state t timeout false e s = (s', Ret false).
Proof.
  intros Hnever k.
  induction k as [|k IH]; intros fuel s Hlt Hdead;
    (destruct fuel as [|fuel]; [lia|]);
    cbn [set_node_poll];
    rewrite (bind_ret_eq _ _ _ _ _ _ _ _ (time_time_eq e s)).
  - rewrite Nat.add_0_r in Hdead.
    erewrite bind_ret_eq by (apply check_deadline_eq; exact Hdead).
    eexists; reflexivity.
  - destruct (before_deadline_defined _ _ _ _ (reading e (ticks s)) t Hdead)
      as [b Hb].
    erewrite bind_ret_eq by (apply check_deadline_eq; exact Hb).
    destruct b; [|eexists; reflexivity].
    destruct (nodes_never_probe "all" (tick s) Hnever) as [tbl [Htbl Hall]].
    erewrite bind_ret_eq by exact Htbl.
    erewrite bind_ret_eq by (apply set_node_scan_none; exact Hall).
    apply IH; [lia|].
    rewrite ran_ticks. cbn [tick ticks].
    now replace (S (ticks s) + k) with (ticks s + S k) by lia.
Qed.

End Deadline.

(** ** The convergence calls *)

Section Convergence.

Variable fuel : nat.
Variable timeout : Z.
Variable force : bool.
Variable e : Env.
Variable s : St.




Variable state : string.
Variable k : nat.

Hypothesis Hstate : state = "online" \/ state = "offline".
Hypothesis Hrc : forall n cmd, rc (respond e n cmd) <> 1%Z.
Hypothesis Hfuel : k < fuel.
Hypothesis Hdeadline :
  before_deadline (reading e (ticks s + 1 + k)) (reading e (ticks s)) timeout
  = Some false.

Lemma set_cluster_timeout :
  (forall s', snd (get_cluster_status e s') <> Ret state) ->
  snd (set_cluster fuel state timeout force e s)
  = FailJson (state_not_set state).
Proof.
  intros Hnever.
  assert (Hpoll : forall s1, ticks s1 = ticks s ->
            exists s', set_cluster_poll fuel state (reading e (ticks s))
                         timeout e (tick s1) = (s', Ret false)).
  { intros s1 Hs1.
    apply (set_cluster_poll_timeout e state _ timeout Hnever k); [exact Hfuel|].
    cbn [tick ticks]. rewrite Hs1.
    now replace (S (ticks s) + k) with (ticks s + 1 + k) by lia. }
  unfold set_cluster.
  destruct Hstate as [-> | ->]; cbn [String.eqb Ascii.eqb Bool.eqb negb].
  - do 2 run_step.
    pose proof (Hnever s) as Hn.
    rewrite get_cluster_status_eq in Hn; cbn [snd] in Hn.
    match goal with |- context [negb (?r =? "online")] =>
      assert (Hneq : (r =? "online") = false)
        by (apply String.eqb_neq; congruence);
      rewrite Hneq
    end.
    cbn [negb]. repeat run_step.
    edestruct Hpoll as [s' Hs']; [|erewrite bind_ret_eq by exact Hs'];
      reflexivity.
  - destruct force; repeat run_step;
      (edestruct Hpoll as [s' Hs']; [|erewrite bind_ret_eq by exact Hs'];
       reflexivity).
Qed.

Lemma set_node_timeout (node : string) :
  nodes_never state e ->
  snd (set_node fuel state timeout force node e s)
  = FailJson (state_not_set state).
Proof.
  intros Hnever.
  unfold set_node.
  destruct (nodes_never_probe e state Hrc node s Hnever) as [tbl [Htbl Hall]].
  erewrite bind_ret_eq by exact Htbl.
  assert (Hcmd : exists c,
            (if state =? "offline"
             then if force then Some ("pcs cluster stop" ++ " --force")
                  else Some "pcs cluster stop"
             else if state =? "online" then Some "pcs cluster start"
                  else None) = Some c).
  { destruct Hstate as [-> | ->]; cbn; [|destruct force]; eauto. }
  destruct Hcmd as [c ->].
  destruct (set_node_dispatch_all e state Hrc tbl c
              (ran (get_node_status_cmd node) s) Hall) as [s1 [Hs1 Ht1]].
  erewrite bind_ret_eq by exact Hs1.
  erewrite bind_ret_eq by apply time_time_eq.
  rewrite ran_ticks in Ht1.
  destruct (set_node_poll_timeout e state (reading e (ticks s1)) timeout
              Hrc Hnever k fuel (tick s1) Hfuel) as [s2 Hs2].
  { cbn [tick ticks]. rewrite Ht1.
    now replace (S (ticks s) + k) with (ticks s + 1 + k) by lia. }
  erewrite bind_ret_eq by exact Hs2.
  reflexivity.
Qed.

End Convergence.

(** ** The controller *)


Section Controller.

Variable fuel : nat.
Variable p : Params.
Variable e : Env.
Variable s : St.

(** With no node given and the probe showing the target, the controller
    leaves with changed=false after that one command. *)
Lemma main_body_cluster_already_in_state (target : string) :
  p_node p = None ->
  p_state p = Some target ->
  target = "online" \/ target = "offline" ->
  snd (get_cluster_status e s) = Ret target ->
  main_body fuel p e s
  = (ran "pcs cluster status" s, ExitJson false (OutState target)).
Proof.
  intros Hnode Hstate Htarget Hprobe.
  unfold main_body; rewrite Hnode, Hstate.
  rewrite get_cluster_status_eq in Hprobe; cbn [snd] in Hprobe.
  assert (Hin : existsb (String.eqb target) ["online"; "offline"] = true)
    by (destruct Htarget; subst; reflexivity).
  unfold when_in at 1; rewrite Hin.
  rewrite bind_assoc.
  erewrite bind_ret_eq by apply get_cluster_status_eq.
  injection Hprobe as ->. now rewrite String.eqb_refl.
Qed.

(** The call of [set_cluster] on the cluster-wide path passes five
    arguments to a def of four parameters: once the probe differs from the
    target, the controller raises TypeError and [set_cluster] is not
    entered. *)
Lemma main_body_cluster_differs (target observed : string) :
  p_node p = None ->
  p_state p = Some target ->
  target = "online" \/ target = "offline" ->
  snd (get_cluster_status e s) = Ret observed ->
  observed <> target ->
  main_body fuel p e s = (ran "pcs cluster status" s, Raise TypeError).
Proof.
  intros Hnode Hstate Htarget Hprobe Hneq.
  unfold main_body; rewrite Hnode, Hstate.
  rewrite get_cluster_status_eq in Hprobe; cbn [snd] in Hprobe.
  assert (Hin : existsb (String.eqb target) ["online"; "offline"] = true)
    by (destruct Htarget; subst; reflexivity).
  unfold when_in at 1; rewrite Hin.
  rewrite bind_assoc.
  erewrite bind_ret_eq by apply get_cluster_status_eq.
  injection Hprobe as ->.
  apply String.eqb_neq in Hneq. now rewrite Hneq.
Qed.

Hypothesis Hrestart : p_state p = Some "restart".

(** On a restart request [main_body] is the first phase followed, when the
    cluster is then offline, by the second. *)
Lemma main_body_restart :
  main_body fuel p e s
  = bind (offline_phase fuel p)
      (fun cluster_state =>
         if cluster_state =? "offline" then online_phase fuel p
         else fail_json cannot_stop) e s.
Proof.
  unfold main_body. rewrite Hrestart.
  cbn [when_in existsb String.eqb Ascii.eqb Bool.eqb orb].
  erewrite bind_ret_eq by reflexivity.
  rewrite bind_ret_tt.
  unfold offline_phase, online_phase. now rewrite bind_assoc.
Qed.



End Controller.

(** ** The module against its specification *)

(** C1: every invocation of [main] raises TypeError while the argument
    specification is built: whatever the constructor [AnsibleModule] would
    do, the state is left as it was (no command has been run, the
    constructor has not been called), and the outcome is never an
    [exit_json] result. *)
Theorem main_raises_TypeError :
  forall (AnsibleModule : PyVal -> M Params) (fuel : nat) (e : Env) (s : St),
    main AnsibleModule fuel e s = (s, Raise TypeError)
    /\ (forall s' changed o,
          main AnsibleModule fuel e s <> (s', ExitJson changed o)).
Proof.
  intros AM fuel e s.
  assert (H : main AM fuel e s = (s, Raise TypeError)).
  { unfold main, bind. now rewrite argument_spec_raises. }
  split; [exact H | intros s' c o; rewrite H; discriminate].
Qed.

(** C2 (the code as written): the membership test of [get_cluster_status]
    asks whether the output occurs in the marker.  An empty output, which
    does not contain the marker, is classified offline; the marker followed
    by a newline, which contains it, is classified online. *)
Theorem get_cluster_status_membership_reversed :
  PyStr.contains "" _PCS_CLUSTER_DOWN = false
  /\ snd (get_cluster_status (cluster_world "" "") st0) = Ret "offline"
  /\ PyStr.contains (_PCS_CLUSTER_DOWN ++ PyStr.nl) _PCS_CLUSTER_DOWN = true
  /\ snd (get_cluster_status
            (cluster_world (_PCS_CLUSTER_DOWN ++ PyStr.nl) "") st0)
     = Ret "online".
Proof. repeat split. Qed.

(** C3 (the code as written): target offline, no node, the cluster
    reported running.  [main] stops while building its argument
    specification; on a constructed module the controller probes once and
    raises TypeError at the call of [set_cluster]: no transition command
    is run, no polling takes place and there is no changed=true result. *)
Theorem main_cluster_scope_never_converges :
  main (fun _ => ret (request (Some "offline") None 300)) 5
    (cluster_world "Cluster name: ha" "") st0
  = (st0, Raise TypeError)
  /\ main_body 5 (request (Some "offline") None 300)
       (cluster_world "Cluster name: ha" "") st0
     = (mkSt ["pcs cluster status"] 0, Raise TypeError).
Proof. split; reflexivity. Qed.

(** C4 (the code as written): target online for node2, which is online
    while node1 is offline.  [main] stops while building its argument
    specification; on a constructed module the probe does not name node2,
    the first line of its output (node1) decides, the whole cluster is
    started through [set_cluster], and the table of all nodes is reported
    with changed=true. *)
Theorem main_node_scope_acts_on_cluster :
  main (fun _ => ret (request (Some "online") (Some "node2") 2)) 5
    (cluster_world "Cluster name: ha" node2_online) st0
  = (st0, Raise TypeError)
  /\ main_body 5 (request (Some "online") (Some "node2") 2)
       (cluster_world "Cluster name: ha" node2_online) st0
     = (mkSt ["pcs cluster pcsd-status"; "pcs cluster status";
              "pcs cluster start"; "pcs cluster status";
              "pcs cluster pcsd-status"] 2,
        ExitJson true
          (OutNodes [["  node1"; " Offline"]; ["  node2"; " Online"]])).
Proof. split; reflexivity. Qed.

(** C5 (the code as written): target online, node1 online and node2
    offline at every probe.  [set_node] returns normally once the deadline
    has passed: one node in the wanted state is enough for [ready], and
    the [break] leaves the inner [for] only, so the loop polls until the
    deadline. *)
Theorem set_node_ready_on_one_node :
  (forall s, snd (get_node_status "all" (cluster_world "" node1_online) s)
             = Ret [["  node1"; " Online"]; ["  node2"; " Offline"]])
  /\ set_node 5 "online" 3 true "all" (cluster_world "" node1_online) st0
     = (mkSt ["pcs cluster pcsd-status all"; "pcs cluster start node2";
              "pcs cluster pcsd-status all"; "pcs cluster pcsd-status all"] 4,
        Ret tt).
Proof. split; reflexivity. Qed.

(** C6 (the code as written): target online, node1 and node2 offline,
    node3 online.  One command is run for each of node1 and node2 and none
    for node3, but the command for node2 is built from the command for
    node1 and names both nodes. *)
Theorem set_node_commands_accumulate :
  set_node 5 "online" 2 true "all" (cluster_world "" node3_online) st0
  = (mkSt ["pcs cluster pcsd-status all"; "pcs cluster start node1";
           "pcs cluster start node1 node2"; "pcs cluster pcsd-status all"] 3,
     Ret tt).
Proof. reflexivity. Qed.



(** C8 (the code as written): target offline, node1 offline and node2
    online at every probe.  [set_node] runs the stop command for node2,
    no probe ever shows both nodes offline, and the call still returns
    normally once the deadline has passed, where a timeout failure is
    due: one node in the wanted state is enough for [ready]. *)
Theorem set_node_returns_without_convergence :
  (forall s, snd (get_node_status "all" (cluster_world "" node2_online) s)
             = Ret [["  node1"; " Offline"]; ["  node2"; " Online"]])
  /\ set_node 5 "offline" 2 true "all" (cluster_world "" node2_online) st0
     = (mkSt ["pcs cluster pcsd-status all";
              "pcs cluster stop --force node2";
              "pcs cluster pcsd-status all"] 3,
        Ret tt).
Proof. split; reflexivity. Qed.

(** C9 (the code as written): target online, no node, the cluster reported
    running.  [main] stops while building its argument specification, so
    there is no changed=false result; on a constructed module the
    controller does probe once and leave with changed=false. *)
Theorem main_never_reports_unchanged :
  main (fun _ => ret (request (Some "online") None 300)) 5
    (cluster_world "Cluster name: ha" "") st0
  = (st0, Raise TypeError)
  /\ main_body 5 (request (Some "online") None 300)
       (cluster_world "Cluster name: ha" "") st0
     = (mkSt ["pcs cluster status"] 0, ExitJson false (OutState "online")).
Proof. split; reflexivity. Qed.

(** C10: [get_cluster_status] always returns, with 'online' or 'offline',
    after one query, and the exit status and error text of the query have
    no influence on what it returns. *)
Theorem get_cluster_status_total_binary :
  forall (e : Env) (s : St),
    (exists r, get_cluster_status e s = (ran "pcs cluster status" s, Ret r)
               /\ (r = "online" \/ r = "offline"))
    /\ (forall rc' err',
          get_cluster_status (with_rc_err e rc' err') s
          = get_cluster_status e s).
Proof.
  intros e s; split.
  - rewrite get_cluster_status_eq.
    destruct (PyStr.contains _PCS_CLUSTER_DOWN _); eexists; split; eauto.
  - intros rc' err'. now rewrite !get_cluster_status_eq.
Qed.

(** ** Further properties of the module *)

Section ControllerPaths.

Variable fuel : nat.
Variable p : Params.
Variable e : Env.
Variable s : St.

(** X5: when [state] is absent, or is none of the four choices, the
    controller runs no command and returns without [exit_json] or
    [fail_json]. *)
Theorem main_body_no_state :
  (forall target, p_state p = Some target ->
     target <> "online" /\ target <> "offline"
     /\ target <> "restart" /\ target <> "cleanup") ->
  main_body fuel p e s = (s, Ret tt).
Proof.
  intros H. unfold main_body.
  destruct (p_state p) as [target|]; [|reflexivity].
  destruct (H target eq_refl) as [H1 [H2 [H3 H4]]].
  apply String.eqb_neq in H1, H2, H3, H4.
  unfold when_in. cbn [existsb]. now rewrite H1, H2, H3, H4.
Qed.

(** X3: on a cleanup request whose command does not end with status 1 the
    controller runs the cleanup command, probes the cluster once and
    leaves with changed=true and the probed state, whatever that state,
    the node and the timeout are. *)
Theorem main_body_cleanup :
  p_state p = Some "cleanup" ->
  rc (respond e (length (trace s)) "pcs resource cleanup") <> 1%Z ->
  main_body fuel p e s
  = (ran "pcs cluster status" (ran "pcs resource cleanup" s),
     ExitJson true
       (OutState (cluster_state_at e (S (length (trace s)))))).
Proof.
  intros Hstate Hrc. unfold main_body. rewrite Hstate.
  cbn [when_in existsb String.eqb Ascii.eqb Bool.eqb orb].
  do 2 (erewrite bind_ret_eq by reflexivity).
  unfold clean_cluster. repeat run_step.
  unfold cluster_state_at. cbn [ran trace].
  rewrite length_app, Nat.add_1_r. reflexivity.
Qed.

(** X4: on a cleanup request whose command ends with status 1 the
    controller fails with the command and its error text, and does not
    probe the cluster. *)
Theorem main_body_cleanup_refused :
  p_state p = Some "cleanup" ->
  rc (respond e (length (trace s)) "pcs resource cleanup") = 1%Z ->
  main_body fuel p e s
  = (ran "pcs resource cleanup" s,
     FailJson (command_failed "pcs resource cleanup"
                 (err (respond e (length (trace s)) "pcs resource cleanup")))).
Proof.
  intros Hstate Hrc. unfold main_body. rewrite Hstate.
  cbn [when_in existsb String.eqb Ascii.eqb Bool.eqb orb].
  do 2 (erewrite bind_ret_eq by reflexivity).
  unfold clean_cluster. repeat run_step.
  now erewrite bind_fail_eq by (apply check_rc_failed; exact Hrc).
Qed.

End ControllerPaths.

Section NodePath.

Variable fuel : nat.
Variable p : Params.
Variable e : Env.
Variable s : St.
Variable target node : string.

Hypothesis Hstate : p_state p = Some target.
Hypothesis Htarget : target = "online" \/ target = "offline".
Hypothesis Hnode : p_node p = Some node.
Hypothesis Hprobe :
  rc (respond e (length (trace s)) (get_node_status_cmd node)) <> 1%Z.

(** After the probe the controller loops over the rows of the table. *)
Lemma main_body_node_path :
  main_body fuel p e s
  = bind
      (for_each (probed_table e s node) (fun node_state =>
         status <- index node_state 1 ;;
         if PyStr.lower (PyStr.strip status) =? target then
           exit_json false (OutNodes (probed_table e s node))
         else
           call_def set_cluster_nparams 4
             (set_cluster fuel target (p_timeout p) (p_force p)) ;;
           cluster_state <- get_node_status node ;;
           exit_json true (OutNodes cluster_state)))
      (fun _ => ret tt) e (ran (get_node_status_cmd node) s).
Proof.
  unfold main_body. rewrite Hstate, Hnode.
  assert (Hin : existsb (String.eqb target) ["online"; "offline"] = true)
    by (destruct Htarget; subst; reflexivity).
  assert (Hre : existsb (String.eqb target) ["restart"] = false)
    by (destruct Htarget; subst; reflexivity).
  assert (Hcl : existsb (String.eqb target) ["cleanup"] = false)
    by (destruct Htarget; subst; reflexivity).
  unfold when_in. rewrite Hin, Hre, Hcl.
  rewrite bind_assoc.
  erewrite bind_ret_eq by (apply get_node_status_eq; exact Hprobe).
  reflexivity.
Qed.

(** X6: when the probe of the nodes prints nothing, the controller runs
    no other command and returns without [exit_json] or [fail_json]. *)
Theorem main_body_node_empty_table :
  out (respond e (length (trace s)) (get_node_status_cmd node)) = "" ->
  main_body fuel p e s = (ran (get_node_status_cmd node) s, Ret tt).
Proof.
  intros Hout. rewrite main_body_node_path.
  unfold probed_table. rewrite Hout. reflexivity.
Qed.

(** X7: the first row of the probe decides: when its status, stripped and
    in lower case, is the target, the controller leaves with
    changed=false and the whole table, the probe being the only command
    run, whatever the other rows say and whatever node was asked for. *)
Theorem main_body_node_first_row_matches (row : list string)
  (rest : list (list string)) :
  probed_table e s node = row :: rest ->
  row_matches target row = true ->
  main_body fuel p e s
  = (ran (get_node_status_cmd node) s, ExitJson false (OutNodes (row :: rest))).
Proof.
  intros Htbl Hrow. rewrite main_body_node_path. rewrite Htbl.
  unfold row_matches in Hrow. cbn [for_each]. unfold index.
  destruct (nth_error row 1) as [status|]; [|discriminate].
  rewrite !bind_assoc. erewrite bind_ret_eq by reflexivity.
  rewrite Hrow. reflexivity.
Qed.

(** X8: when the first row of the probe has no status field (its line has
    no colon), the controller raises IndexError after the probe. *)
Theorem main_body_node_no_status_field (row : list string)
  (rest : list (list string)) :
  probed_table e s node = row :: rest ->
  has_status row = false ->
  main_body fuel p e s = (ran (get_node_status_cmd node) s, Raise IndexError).
Proof.
  intros Htbl Hrow. rewrite main_body_node_path. rewrite Htbl.
  unfold has_status in Hrow. cbn [for_each]. unfold index.
  destruct (nth_error row 1) as [status|]; [discriminate|].
  reflexivity.
Qed.

(** X9: when the status of the first row is not the target, the controller
    calls [set_cluster] for the whole cluster; when that call returns, it
    probes the nodes again and leaves with changed=true and the new table,
    without comparing the table with the target; when that call fails,
    so does the controller, with the same message. *)
Theorem main_body_node_first_row_differs (row : list string)
  (rest : list (list string)) (s2 : St) (o : Outcome unit) :
  probed_table e s node = row :: rest ->
  row_differs target row = true ->
  set_cluster fuel target (p_timeout p) (p_force p) e
    (ran (get_node_status_cmd node) s) = (s2, o) ->
  (forall m, o = FailJson m -> main_body fuel p e s = (s2, FailJson m))
  /\ (o = Ret tt ->
      rc (respond e (length (trace s2)) (get_node_status_cmd node)) <> 1%Z ->
      main_body fuel p e s
      = (ran (get_node_status_cmd node) s2,
         ExitJson true (OutNodes (probed_table e s2 node)))).
Proof.
  intros Htbl Hrow E. rewrite main_body_node_path. rewrite Htbl.
  unfold row_differs in Hrow. cbn [for_each]. unfold index.
  destruct (nth_error row 1) as [status|]; [|discriminate].
  apply negb_true_iff in Hrow.
  rewrite !bind_assoc. erewrite bind_ret_eq by reflexivity.
  rewrite Hrow. rewrite call_def_arity. rewrite !bind_assoc.
  split.
  - intros m ->. now rewrite (bind_fail_eq _ _ _ _ _ _ _ _ E).
  - intros -> Hrc2. rewrite (bind_ret_eq _ _ _ _ _ _ _ _ E).
    rewrite ?bind_assoc.
    erewrite bind_ret_eq by (apply get_node_status_eq; exact Hrc2).
    reflexivity.
Qed.

End NodePath.

Section SetCluster.

Variable fuel : nat.
Variable state : string.
Variable timeout : Z.
Variable force : bool.
Variable e : Env.
Variable s : St.

(** X13: called with a state that is neither 'online' nor 'offline',
    [set_cluster] raises UnboundLocalError before it runs any command. *)
Theorem set_cluster_unknown_state :
  state <> "online" -> state <> "offline" ->
  set_cluster fuel state timeout force e s = (s, Raise UnboundLocalError).
Proof.
  intros H1 H2. apply String.eqb_neq in H1, H2.
  unfold set_cluster. rewrite H1, H2. reflexivity.
Qed.

(** The commands [set_cluster] runs up to its transition command. *)
Lemma set_cluster_dispatch :
  state = "online" \/ state = "offline" ->
  exists s1,
    set_cluster fuel state timeout force e s
    = bind (r <- run_command (transition_cmd state force) ;;
            check_rc (transition_cmd state force) r)
        (fun _ =>
           t <- time_time ;;
           ready <- set_cluster_poll fuel state t timeout ;;
           if negb ready then fail_json (state_not_set state) else ret tt)
        e s1
    /\ ticks s1 = ticks s
    /\ length (trace s) <= length (trace s1).
Proof.
  intros [-> | ->]; unfold set_cluster, transition_cmd;
    cbn [String.eqb Ascii.eqb Bool.eqb negb].
  - do 2 run_step.
    match goal with |- context [negb ?c] => destruct c end; cbn [negb];
      repeat run_step; unfold local; repeat run_step;
      eexists; (split; [rewrite !bind_assoc; reflexivity|]);
      cbn [ran ticks trace]; rewrite ?length_app; cbn [length]; split; lia.
  - destruct force; unfold local, stop_cmd; repeat run_step;
      eexists; (split; [rewrite !bind_assoc; reflexivity|]); split; lia.
Qed.


(** The loop of [set_cluster] ends with [ready] true when the cluster shows
    [state] from the [d]-th next command on and the clock stays before
    the deadline for the next [d + 1] readings. *)
Lemma set_cluster_poll_converges (t : PyFloat.float) :
  forall (d fuel' : nat) (s1 : St),
    d < fuel' ->
    (forall n, length (trace s1) + d <= n -> cluster_state_at e n = state) ->
    (forall i, i <= d ->
       before_deadline (reading e (ticks s1 + i)) t timeout = Some true) ->
    exists s', set_cluster_poll fuel' state t timeout e s1 = (s', Ret true).
Proof.
  induction d as [|d IH]; intros fuel' s1 Hlt Hshow Hclock;
    (destruct fuel' as [|fuel']; [lia|]);
    cbn [set_cluster_poll];
    rewrite (bind_ret_eq _ _ _ _ _ _ _ _ (time_time_eq e s1));
    pose proof (Hclock 0 (Nat.le_0_l _)) as H0;
    rewrite Nat.add_0_r in H0;
    erewrite bind_ret_eq by (apply check_deadline_eq; exact H0);
    cbv beta iota;
    erewrite bind_ret_eq by apply get_cluster_status_eq;
    cbn [tick trace]; fold (cluster_state_at e (length (trace s1))).
  - rewrite (Hshow (length (trace s1))) by lia.
    rewrite String.eqb_refl. eexists; reflexivity.
  - destruct (cluster_state_at e (length (trace s1)) =? state).
    + eexists; reflexivity.
    + apply IH; [lia | |].
      * intros n Hn. apply Hshow. cbn [ran tick trace] in Hn.
        rewrite length_app in Hn. cbn [length] in Hn. lia.
      * intros i Hi. cbn [ran tick ticks].
        replace (S (ticks s1) + i) with (ticks s1 + S i) by lia.
        apply Hclock. lia.
Qed.

(** X11: [set_cluster] returns normally as soon as a probe shows the
    target: it is enough that the transition command does not end with
    status 1, that the cluster shows the target from the [N]-th command
    after the call on, and that the test [time.time() < t + timeout], as
    the doubles decide it, holds for the [N + 1] readings that follow the
    reading of [t]. *)
Theorem set_cluster_converges (N : nat) :
  state = "online" \/ state = "offline" ->
  (forall n, rc (respond e n (transition_cmd state force)) <> 1%Z) ->
  N < fuel ->
  (forall n, length (trace s) + N <= n -> cluster_state_at e n = state) ->
  (forall i, i <= N ->
     before_deadline (reading e (ticks s + 1 + i)) (reading e (ticks s))
       timeout = Some true) ->
  snd (set_cluster fuel state timeout force e s) = Ret tt.
Proof.
  intros Hstate Hrc Hfuel Hshow Hclock.
  destruct (set_cluster_dispatch Hstate) as [s1 [-> [Ht Hlen]]].
  rewrite bind_assoc. erewrite bind_ret_eq by apply run_command_eq.
  erewrite bind_ret_eq by (apply check_rc_ok; apply Hrc).
  erewrite bind_ret_eq by apply time_time_eq.
  destruct (set_cluster_poll_converges
              (reading e (ticks (ran (transition_cmd state force) s1)))
              N fuel (tick (ran (transition_cmd state force) s1)) Hfuel)
    as [s' Hs'].
  - intros n Hn. apply Hshow. cbn [ran tick trace] in Hn.
    rewrite length_app in Hn. cbn [length] in Hn. lia.
  - intros i Hi. cbn [ran tick ticks]. rewrite Ht.
    replace (S (ticks s) + i) with (ticks s + 1 + i) by lia.
    now apply Hclock.
  - erewrite bind_ret_eq by exact Hs'. reflexivity.
Qed.

(** X12: when the first test [time.time() < t + timeout] of the loop is
    false, as the doubles decide it, [set_cluster] fails with the timeout
    message without probing once after the transition command, whatever
    the state of the cluster. *)
Theorem set_cluster_no_time_to_poll :
  state = "online" \/ state = "offline" ->
  (forall n, rc (respond e n (transition_cmd state force)) <> 1%Z) ->
  0 < fuel ->
  before_deadline (reading e (S (ticks s))) (reading e (ticks s)) timeout
  = Some false ->
  exists s',
    set_cluster fuel state timeout force e s
    = (s', FailJson (state_not_set state))
    /\ last (trace s') "" = transition_cmd state force.
Proof.
  intros Hstate Hrc Hfuel Hpast.
  destruct (set_cluster_dispatch Hstate) as [s1 [-> [Ht _]]].
  rewrite bind_assoc. erewrite bind_ret_eq by apply run_command_eq.
  erewrite bind_ret_eq by (apply check_rc_ok; apply Hrc).
  erewrite bind_ret_eq by apply time_time_eq.
  destruct fuel as [|fuel']; [lia|]. cbn [set_cluster_poll].
  rewrite bind_assoc. erewrite bind_ret_eq by apply time_time_eq.
  cbn [ran tick ticks]. rewrite Ht.
  rewrite bind_assoc.
  erewrite bind_ret_eq by (apply check_deadline_eq; exact Hpast).
  erewrite bind_ret_eq by reflexivity.
  eexists. split; [reflexivity|]. cbn [trace]. apply last_last.
Qed.

(** X21: when [timeout] is beyond the doubles, [set_cluster] runs its
    transition command, reads the clock twice and raises OverflowError at
    the first test of the loop: it neither probes nor reports a timeout. *)
Theorem set_cluster_timeout_overflow :
  state = "online" \/ state = "offline" ->
  (forall n, rc (respond e n (transition_cmd state force)) <> 1%Z) ->
  0 < fuel ->
  PyFloat.of_int timeout = None ->
  exists s',
    set_cluster fuel state timeout force e s = (s', Raise OverflowError)
    /\ last (trace s') "" = transition_cmd state force
    /\ ticks s' = ticks s + 2.
Proof.
  intros Hstate Hrc Hfuel Hover.
  destruct (set_cluster_dispatch Hstate) as [s1 [-> [Ht _]]].
  rewrite bind_assoc. erewrite bind_ret_eq by apply run_command_eq.
  erewrite bind_ret_eq by (apply check_rc_ok; apply Hrc).
  erewrite bind_ret_eq by apply time_time_eq.
  destruct fuel as [|fuel']; [lia|]. cbn [set_cluster_poll].
  rewrite bind_assoc. erewrite bind_ret_eq by apply time_time_eq.
  rewrite bind_assoc.
  erewrite bind_raise_eq
    by (apply check_deadline_overflow; unfold before_deadline;
        now rewrite Hover).
  eexists. split; [reflexivity|]. cbn [ran tick trace ticks].
  split; [apply last_last | lia].
Qed.

End SetCluster.

Section SetNode.

Variable state : string.
Variable e : Env.

(** No command ends with status 1. *)
Hypothesis Hrc : forall n cmd, rc (respond e n cmd) <> 1%Z.

(** The first loop of [set_node] on a table whose rows all have a status
    field: the commands it runs are built one from the other, each with
    the name of one more differing node. *)
Lemma set_node_dispatch_trace :
  forall (tbl : list (list string)) (base : string) (s : St),
    forallb has_status tbl = true ->
    set_node_dispatch state (Some base) tbl e s
    = (mkSt (trace s ++ accumulate base (differing_names state tbl)) (ticks s),
       Ret tt).
Proof.
  induction tbl as [|row tbl IH]; intros base s Hall.
  - cbn. rewrite app_nil_r. now destruct s.
  - cbn [forallb] in Hall. apply andb_prop in Hall as [Hrow Htbl].
    unfold has_status in Hrow.
    destruct row as [|name [|status row]]; try discriminate.
    cbn [set_node_dispatch]. unfold index. cbn [nth_error].
    erewrite bind_ret_eq by reflexivity.
    unfold differing_names. cbn [filter]. unfold row_differs at 1.
    cbn [nth_error].
    destruct (negb (PyStr.lower (PyStr.strip status) =? state)).
    + unfold local. repeat run_step. rewrite IH by exact Htbl.
      cbn [map hd accumulate ran trace ticks].
      now rewrite <- app_assoc.
    + now rewrite IH by exact Htbl.
Qed.

(** On a table whose rows all show [state] the first loop runs nothing,
    whatever [cmd] is. *)
Lemma set_node_dispatch_none (cmd : option string) :
  forall (tbl : list (list string)) (s : St),
    forallb (row_matches state) tbl = true ->
    set_node_dispatch state cmd tbl e s = (s, Ret tt).
Proof.
  induction tbl as [|row tbl IH]; intros s Hall; [reflexivity|].
  cbn [forallb] in Hall. apply andb_prop in Hall as [Hrow Htbl].
  unfold row_matches in Hrow.
  destruct row as [|name [|status row]]; try discriminate.
  cbn [nth_error] in Hrow.
  cbn [set_node_dispatch]. unfold index. cbn [nth_error].
  erewrite bind_ret_eq by reflexivity. rewrite Hrow. cbn [negb].
  now apply IH.
Qed.

Lemma set_node_scan_all (ready : bool) (s : St) (tbl : list (list string)) :
  tbl <> [] ->
  forallb (row_matches state) tbl = true ->
  set_node_scan state ready tbl e s = (s, Ret true).
Proof.
  destruct tbl as [|row tbl]; [congruence|]. intros _ Hall.
  cbn [forallb] in Hall. apply andb_prop in Hall as [Hrow _].
  unfold row_matches in Hrow.
  destruct row as [|name [|status row]]; try discriminate.
  cbn [nth_error] in Hrow.
  cbn [set_node_scan]. unfold index. cbn [nth_error].
  erewrite bind_ret_eq by reflexivity. now rewrite Hrow.
Qed.

(** The scan of a table runs no command and reads no clock. *)
Lemma set_node_scan_state (tbl : list (list string)) :
  forall (ready : bool) (s : St),
    fst (set_node_scan state ready tbl e s) = s.
Proof.
  induction tbl as [|row tbl IH]; intros ready s; [reflexivity|].
  cbn [set_node_scan]. unfold index.
  destruct (nth_error row 1) as [status|]; [|reflexivity].
  erewrite bind_ret_eq by reflexivity.
  destruct (_ =? _); [reflexivity | apply IH].
Qed.

(** Whatever the probes show, the second loop of [set_node] runs nothing
    but the probe of all nodes. *)
Lemma set_node_poll_trace (t : PyFloat.float) (timeout : Z) :
  forall (fuel : nat) (ready : bool) (s : St),
    exists j,
      trace (fst (set_node_poll fuel state t timeout ready e s))
      = (trace s ++ repeat "pcs cluster pcsd-status all" j)%list.
Proof.
  induction fuel as [|fuel IH]; intros ready s.
  - exists 0. cbn. now rewrite app_nil_r.
  - cbn [set_node_poll].
    erewrite bind_ret_eq by apply time_time_eq.
    destruct (before_deadline (reading e (ticks s)) t timeout) as [[|]|] eqn:Hb.
    2:{ erewrite bind_ret_eq by (apply check_deadline_eq; exact Hb).
        exists 0. cbn. now rewrite app_nil_r. }
    2:{ erewrite bind_raise_eq by (apply check_deadline_overflow; exact Hb).
        exists 0. cbn. now rewrite app_nil_r. }
    erewrite bind_ret_eq by (apply check_deadline_eq; exact Hb).
    cbv beta iota.
    + erewrite bind_ret_eq
        by (apply (get_node_status_eq "all"); apply Hrc).
      match goal with |- context [set_node_scan state ready ?tbl] =>
        pose proof (set_node_scan_state tbl ready
                      (ran (get_node_status_cmd "all") (tick s))) as Hs2;
        destruct (set_node_scan state ready tbl e
                    (ran (get_node_status_cmd "all") (tick s)))
          as [s2 o] eqn:E
      end.
      cbn [fst] in Hs2. subst s2.
      destruct o as [b| | | |];
        try (exists 1; unfold bind; rewrite E; cbn; reflexivity).
      rewrite (bind_ret_eq _ _ _ _ _ _ _ _ E).
      destruct (IH b (ran (get_node_status_cmd "all") (tick s))) as [j Hj].
      exists (S j). rewrite Hj. cbn [ran tick trace repeat].
      now rewrite <- app_assoc.
Qed.

Lemma bind_fst_keep A B (m : M A) (k : A -> M B) (s : St) :
  (forall a s', fst (k a e s') = s') ->
  fst (bind m k e s) = fst (m e s).
Proof.
  intros Hk. unfold bind. destruct (m e s) as [s' [a| | | |]]; cbn; auto.
Qed.

Lemma set_node_cmd (force : bool) :
  state = "online" \/ state = "offline" ->
  (if state =? "offline"
   then if force then Some ("pcs cluster stop" ++ " --force")
        else Some "pcs cluster stop"
   else if state =? "online" then Some "pcs cluster start" else None)
  = Some (transition_cmd state force).
Proof. intros [-> | ->]; [reflexivity | now destruct force]. Qed.

(** X14: on a table whose rows all have a status field, [set_node] runs
    the probe, then one command for each node whose status is not the
    target, in the order of the table, the command for a node naming that
    node and every differing node before it, and after that nothing but
    probes of all nodes. *)
Theorem set_node_commands (fuel : nat) (timeout : Z) (force : bool)
  (node : string) (s : St) :
  state = "online" \/ state = "offline" ->
  forallb has_status (probed_table e s node) = true ->
  exists j,
    trace (fst (set_node fuel state timeout force node e s))
    = (trace s ++ [get_node_status_cmd node]
       ++ accumulate (transition_cmd state force)
            (differing_names state (probed_table e s node))
       ++ repeat "pcs cluster pcsd-status all" j)%list.
Proof.
  intros Hstate Hall. unfold set_node.
  erewrite bind_ret_eq by (apply get_node_status_eq; apply Hrc).
  rewrite (set_node_cmd force Hstate).
  fold (probed_table e s node).
  erewrite bind_ret_eq by (apply set_node_dispatch_trace; exact Hall).
  erewrite bind_ret_eq by apply time_time_eq.
  rewrite bind_fst_keep by (intros [] s'; reflexivity).
  match goal with |- context [set_node_poll fuel state ?t timeout false e ?s1] =>
    destruct (set_node_poll_trace t timeout fuel false s1) as [j Hj]
  end.
  exists j. rewrite Hj. cbn [tick ran trace]. now rewrite <- !app_assoc.
Qed.

(** The second loop of [set_node] when every probe shows all nodes in
    [state]: it probes once per clock reading before the deadline. *)
Lemma set_node_poll_until_deadline (t : PyFloat.float) (timeout : Z) :
  nodes_always state e ->
  forall (j fuel : nat) (ready : bool) (s : St),
    j < fuel ->
    (forall i, i < j ->
       before_deadline (reading e (ticks s + i)) t timeout = Some true) ->
    before_deadline (reading e (ticks s + j)) t timeout = Some false ->
    set_node_poll fuel state t timeout ready e s
    = (mkSt (trace s ++ repeat "pcs cluster pcsd-status all" j)
            (ticks s + S j),
       Ret (ready || (0 <? j)%nat)).
Proof.
  intros Halways.
  induction j as [|j IH]; intros fuel ready s Hlt Hbefore Hpast;
    (destruct fuel as [|fuel]; [lia|]);
    cbn [set_node_poll];
    rewrite (bind_ret_eq _ _ _ _ _ _ _ _ (time_time_eq e s)).
  - rewrite Nat.add_0_r in Hpast.
    erewrite bind_ret_eq by (apply check_deadline_eq; exact Hpast).
    cbn [repeat]. rewrite app_nil_r, Nat.add_1_r, orb_false_r. reflexivity.
  - pose proof (Hbefore 0 (Nat.lt_0_succ _)) as H0.
    rewrite Nat.add_0_r in H0.
    erewrite bind_ret_eq by (apply check_deadline_eq; exact H0).
    cbv beta iota.
    erewrite bind_ret_eq by (apply (get_node_status_eq "all"); apply Hrc).
    destruct (Halways "all" (length (trace (tick s)))) as [Hne Hall].
    erewrite bind_ret_eq by (apply set_node_scan_all; [exact Hne | exact Hall]).
    rewrite IH; [| lia | |].
    + cbn [ran tick trace ticks repeat]. rewrite <- app_assoc.
      rewrite orb_true_r.
      now replace (S (ticks s) + S j) with (ticks s + S (S j)) by lia.
    + intros i Hi. cbn [ran tick ticks].
      replace (S (ticks s) + i) with (ticks s + S i) by lia.
      apply Hbefore. lia.
    + cbn [ran tick ticks].
      now replace (S (ticks s) + j) with (ticks s + S j) by lia.
Qed.

(** X15: when no command ends with status 1 and every probe shows at least
    one node and all nodes in the target state, [set_node] dispatches
    nothing and still probes once for every reading for which the test
    [time.time() < t + timeout], as the doubles decide it, holds: it
    returns at the first reading for which the test is false, and not
    before.  When the test is false at the first reading it fails with the
    timeout message although nothing had to be done. *)
Theorem set_node_polls_until_deadline (fuel : nat) (timeout : Z)
  (force : bool) (node : string) (s : St) (j : nat) :
  nodes_always state e ->
  j < fuel ->
  (forall i, i < j ->
     before_deadline (reading e (ticks s + 1 + i)) (reading e (ticks s))
       timeout = Some true) ->
  before_deadline (reading e (ticks s + 1 + j)) (reading e (ticks s)) timeout
  = Some false ->
  set_node fuel state timeout force node e s
  = (mkSt (trace s ++ get_node_status_cmd node
                      :: repeat "pcs cluster pcsd-status all" j)
          (ticks s + 2 + j),
     if (j =? 0)%nat then FailJson (state_not_set state) else Ret tt).
Proof.
  intros Halways Hlt Hbefore Hpast. unfold set_node.
  erewrite bind_ret_eq by (apply get_node_status_eq; apply Hrc).
  destruct (Halways node (length (trace s))) as [_ Hall].
  erewrite bind_ret_eq by (apply set_node_dispatch_none; exact Hall).
  erewrite bind_ret_eq by apply time_time_eq.
  erewrite bind_ret_eq.
  2:{ apply (set_node_poll_until_deadline _ _ Halways j); [exact Hlt | |].
      - intros i Hi. cbn [ran tick ticks].
        replace (S (ticks s) + i) with (ticks s + 1 + i) by lia.
        now apply Hbefore.
      - cbn [ran tick ticks].
        now replace (S (ticks s) + j) with (ticks s + 1 + j) by lia. }
  cbn [ran tick trace ticks orb]. rewrite <- app_assoc. cbn [app].
  replace (S (ticks s) + S j) with (ticks s + 2 + j) by lia.
  destruct j; reflexivity.
Qed.

End SetNode.

Section Restart.

Variable fuel : nat.
Variable p : Params.
Variable e : Env.
Variable s : St.

Hypothesis Hrestart : p_state p = Some "restart".

Lemma get_cluster_status_at (s1 : St) (st : string) :
  cluster_state_at e (length (trace s1)) = st ->
  get_cluster_status e s1 = (ran "pcs cluster status" s1, Ret st).
Proof. intros <-. apply get_cluster_status_eq. Qed.


(** X16: the commands of a restart that goes well, the test
    [time.time() < t + timeout] holding, as the doubles decide it, at the
    first reading of each of the two loops.  The cluster is stopped
    and seen offline at the first probe and at the probe after the phase;
    the second phase probes it, finds it offline, runs the bare command
    [pcs], whose result it ignores, and the start command; the cluster is
    seen online at the first probe and at the last one.  The controller
    leaves with changed=true and 'online' after these eight commands. *)
Theorem restart_command_sequence :
  let n := length (trace s) in
  0 < fuel ->
  rc (respond e n (stop_cmd (p_force p))) <> 1%Z ->
  cluster_state_at e (n + 1) = "offline" ->
  cluster_state_at e (n + 2) = "offline" ->
  cluster_state_at e (n + 3) = "offline" ->
  rc (respond e (n + 5) "pcs cluster start") <> 1%Z ->
  cluster_state_at e (n + 6) = "online" ->
  cluster_state_at e (n + 7) = "online" ->
  before_deadline (reading e (ticks s + 1)) (reading e (ticks s))
    (p_timeout p) = Some true ->
  before_deadline (reading e (ticks s + 3)) (reading e (ticks s + 2))
    (p_timeout p) = Some true ->
  main_body fuel p e s
  = (mkSt (trace s ++ [stop_cmd (p_force p); "pcs cluster status";
                       "pcs cluster status"; "pcs cluster status"; "pcs";
                       "pcs cluster start"; "pcs cluster status";
                       "pcs cluster status"])
          (ticks s + 4),
     ExitJson true (OutState "online")).
Proof.
  intros n Hfuel Hstop H1 H2 H3 Hstart H6 H7 Hc1 Hc3. subst n.
  rewrite (main_body_restart fuel p e s Hrestart).
  destruct fuel as [|fuel']; [lia|].
  unfold offline_phase, online_phase. rewrite !call_def_arity.
  unfold set_cluster. cbn [String.eqb Ascii.eqb Bool.eqb set_cluster_poll].
  assert (Hcmd : local (if p_force p
                        then Some ("pcs cluster stop" ++ " --force")
                        else Some "pcs cluster stop")
                 = ret (stop_cmd (p_force p))) by now destruct (p_force p).
  rewrite Hcmd. clear Hcmd. unfold local.
  assert (Hat : forall (s1 : St) (k : nat) (st : string),
            cluster_state_at e (length (trace s) + k) = st ->
            length (trace s1) = length (trace s) + k ->
            get_cluster_status e s1 = (ran "pcs cluster status" s1, Ret st)).
  { intros s1 k st H Hlen. apply get_cluster_status_at. now rewrite Hlen. }
  assert (Hrcat : forall (s1 s2 : St) (k : nat) (cmd : string),
            rc (respond e (length (trace s) + k) cmd) <> 1%Z ->
            length (trace s1) = length (trace s) + k ->
            check_rc cmd (respond e (length (trace s1)) cmd) e s2
            = (s2, Ret tt)).
  { intros s1 s2 k cmd H Hlen. apply check_rc_ok. now rewrite Hlen. }
  rewrite <- (Nat.add_0_r (length (trace s))) in Hstop.
  replace (ticks s + 1) with (S (ticks s)) in Hc1 by lia.
  replace (ticks s + 3) with (S (S (S (ticks s)))) in Hc3 by lia.
  replace (ticks s + 2) with (S (S (ticks s))) in Hc3 by lia.
  repeat
    (rewrite ?bind_assoc;
     first
       [ erewrite bind_ret_eq by apply run_command_eq
       | erewrite bind_ret_eq by apply time_time_eq
       | erewrite bind_ret_eq by
           (match goal with
            | H : rc (respond e (_ + ?k) ?c) <> 1%Z |- _ =>
                apply (Hrcat _ _ k c H);
                cbn [ran tick trace]; rewrite ?length_app; cbn [length]; lia
            end)
       | erewrite bind_ret_eq by
           (match goal with
            | H : cluster_state_at e (_ + ?k) = ?st |- _ =>
                apply (Hat _ k st H);
                cbn [ran tick trace]; rewrite ?length_app; cbn [length]; lia
            end)
       | erewrite bind_ret_eq by
           (apply check_deadline_eq; cbn [ran tick ticks];
            first [exact Hc1 | exact Hc3])
       | erewrite bind_ret_eq by reflexivity
       | progress cbv beta iota
       | progress cbn [String.eqb Ascii.eqb Bool.eqb negb] ]).
  unfold exit_json, lift, ran, tick. cbn [trace ticks].
  rewrite <- !app_assoc. cbn [app].
  now replace (S (S (S (S (ticks s))))) with (ticks s + 4) by lia.
Qed.

End Restart.

(** ** The parsing of the probes *)

Lemma prefix_length (a b : string) :
  String.prefix a b = true -> String.length a <= String.length b.
Proof.
  revert b. induction a as [|c a IH]; intros b H; [cbn; lia|].
  destruct b as [|c' b]; [discriminate|].
  cbn in H. destruct (ascii_dec c c'); [|discriminate].
  cbn. apply IH in H. lia.
Qed.

Lemma contains_length (s sub : string) :
  PyStr.contains s sub = true -> String.length sub <= String.length s.
Proof.
  induction s as [|c s IH]; cbn [PyStr.contains]; intros H;
    apply orb_prop in H as [H | H].
  - now apply prefix_length.
  - discriminate.
  - now apply prefix_length.
  - apply IH in H. cbn. lia.
Qed.

(** X18: an output longer than the marker is classified online, whether it
    contains the marker or not. *)
Theorem get_cluster_status_long_output (e : Env) (s : St) :
  String.length _PCS_CLUSTER_DOWN
  < String.length (out (respond e (length (trace s)) "pcs cluster status")) ->
  get_cluster_status e s = (ran "pcs cluster status" s, Ret "online").
Proof.
  intros Hlong. rewrite get_cluster_status_eq.
  destruct (PyStr.contains _PCS_CLUSTER_DOWN _) eqn:E; [|reflexivity].
  apply contains_length in E. lia.
Qed.

Lemma split_from_length (sep : ascii) (s cur : string) :
  length (PyStr.split_from sep cur s) = S (count_char sep s).
Proof.
  revert cur. induction s as [|c s IH]; intros cur; [reflexivity|].
  cbn [PyStr.split_from count_char].
  destruct (Ascii.eqb c sep); cbn [length]; now rewrite IH.
Qed.

Lemma append_empty_r (s : string) : s ++ "" = s.
Proof. induction s as [|c s IH]; cbn; [reflexivity | now rewrite IH]. Qed.

Lemma append_snoc (a : string) (c : ascii) (b : string) :
  PyStr.snoc a c ++ b = a ++ String c b.
Proof.
  unfold PyStr.snoc. induction a as [|c' a IH]; cbn; [reflexivity|].
  now rewrite IH.
Qed.

Lemma split_from_concat (sep : ascii) (s cur : string) :
  String.concat (String sep "") (PyStr.split_from sep cur s) = cur ++ s.
Proof.
  revert cur. induction s as [|c s IH]; intros cur.
  - cbn. now rewrite append_empty_r.
  - cbn [PyStr.split_from].
    destruct (Ascii.eqb_spec c sep) as [-> | Hneq].
    + pose proof (split_from_length sep s "") as Hlen.
      pose proof (IH "") as Hcat.
      destruct (PyStr.split_from sep "" s) as [|h t]; [discriminate|].
      cbn [String.concat] in *. rewrite Hcat. reflexivity.
    + rewrite IH. apply append_snoc.
Qed.

(** X19: the row made from a line has one field more than the line has
    colons, so it always has a name field, and a status field exactly
    when the line has a colon; joining its fields with colons gives the
    line back. *)
Theorem node_row_fields (line : string) :
  length (PyStr.split ":" line) = S (count_char ":" line)
  /\ has_status (PyStr.split ":" line) = (0 <? count_char ":" line)%nat
  /\ String.concat ":" (PyStr.split ":" line) = line.
Proof.
  pose proof (split_from_length ":" line "") as Hlen.
  split; [exact Hlen|]. split; [|apply (split_from_concat ":" line "")].
  unfold has_status, PyStr.split.
  destruct (PyStr.split_from ":" "" line) as [|name [|status row]];
    cbn in *; destruct (count_char ":" line); try discriminate; reflexivity.
Qed.

(** X20: when the probe of the nodes ends with status 1, the controller
    fails with the command of the probe and its error text, and runs no
    other command. *)
Theorem main_body_node_probe_refused (fuel : nat) (p : Params) (e : Env)
  (s : St) (target node : string) :
  p_state p = Some target ->
  target = "online" \/ target = "offline" ->
  p_node p = Some node ->
  rc (respond e (length (trace s)) (get_node_status_cmd node)) = 1%Z ->
  main_body fuel p e s
  = (ran (get_node_status_cmd node) s,
     FailJson (command_failed (get_node_status_cmd node)
                 (err (respond e (length (trace s))
                         (get_node_status_cmd node))))).
Proof.
  intros Hstate Htarget Hnode Hrc.
  unfold main_body. rewrite Hstate, Hnode.
  assert (Hin : existsb (String.eqb target) ["online"; "offline"] = true)
    by (destruct Htarget; subst; reflexivity).
  unfold when_in at 1. rewrite Hin.
  unfold get_node_status. rewrite !bind_assoc.
  erewrite bind_ret_eq by apply run_command_eq.
  rewrite ?bind_assoc.
  now erewrite bind_fail_eq by (apply check_rc_failed; exact Hrc).
Qed.

(** X22: a call of [set_cluster] or [set_node] for target online or
    offline in which no command ends with status 1, no probe shows the
    target ([set_cluster]), respectively no node of any probe shows it
    ([set_node]), and the test [time.time() < t + timeout], as the
    doubles decide it, is false at some reading after the one of [t],
    ends with [fail_json] and the message naming the target, given fuel
    for the polls up to that reading. *)
Theorem timeout_ends_in_failure :
  forall (fuel : nat) (state : string) (timeout : Z) (force : bool)
         (node : string) (e : Env) (s : St) (k : nat),
    state = "online" \/ state = "offline" ->
    (forall n cmd, rc (respond e n cmd) <> 1%Z) ->
    k < fuel ->
    before_deadline (reading e (ticks s + 1 + k)) (reading e (ticks s))
      timeout = Some false ->
    ((forall s', snd (get_cluster_status e s') <> Ret state) ->
     snd (set_cluster fuel state timeout force e s)
     = FailJson (state_not_set state))
    /\ (nodes_never state e ->
        snd (set_node fuel state timeout force node e s)
        = FailJson (state_not_set state)).
Proof.
  intros fuel state timeout force node e s k Hstate Hrc Hlt Hdead.
  split; intros Hnever.
  - now apply (set_cluster_timeout fuel timeout force e s state k).
  - now apply (set_node_timeout fuel timeout force e s state k).
Qed.

(** The deadline test follows the doubles: 0.2 + 1 is the double 1.2, so
    with [t] read as 0.2 and a timeout of 1 the reading 1.2 is not before
    the deadline, and [set_cluster] fails without a probe. *)
Lemma set_cluster_rounded_deadline :
  before_deadline (reading decimal_clock 1) (reading decimal_clock 0) 1
  = Some false
  /\ set_cluster 5 "offline" 1 true decimal_clock st0
     = (mkSt ["pcs cluster stop --force"] 2,
        FailJson (state_not_set "offline")).
Proof. split; reflexivity. Qed.

(** ** Runs that meet the hypotheses above *)

Lemma timeout_ends_in_failure_witness :
  snd (set_cluster 5 "online" 2 true (cluster_world "" nodes_offline) st0)
  = FailJson (state_not_set "online")
  /\ snd (set_node 5 "online" 2 true "all"
            (cluster_world "" nodes_offline) st0)
     = FailJson (state_not_set "online").
Proof.
  assert (Hrc : forall n cmd,
            rc (respond (cluster_world "" nodes_offline) n cmd) <> 1%Z).
  { intros n cmd. cbn. destruct (cmd =? "pcs cluster status"); discriminate. }
  destruct (timeout_ends_in_failure 5 "online" 2 true "all"
              (cluster_world "" nodes_offline) st0 1)
    as [Hcluster Hnode];
    [left; reflexivity | exact Hrc | lia | reflexivity | ].
  split.
  - apply Hcluster. intros s'. rewrite get_cluster_status_eq. discriminate.
  - apply Hnode. intros node s. eexists. split.
    + rewrite get_node_status_eq by apply Hrc. reflexivity.
    + unfold get_node_status_cmd.
      destruct (node =? "all"); reflexivity.
Defined.


Lemma main_body_cluster_already_in_state_witness :
  main_body 5 (request (Some "offline") None 300)
    (cluster_world _PCS_CLUSTER_DOWN "") st0
  = (ran "pcs cluster status" st0, ExitJson false (OutState "offline")).
Proof.
  apply main_body_cluster_already_in_state;
    [reflexivity | reflexivity | right; reflexivity | reflexivity].
Defined.

Lemma main_body_cluster_differs_witness :
  main_body 5 (request (Some "online") None 300) (cluster_world "" "") st0
  = (ran "pcs cluster status" st0, Raise TypeError).
Proof.
  apply (main_body_cluster_differs 5 _ _ st0 "online" "offline");
    [reflexivity | reflexivity | left; reflexivity | reflexivity
    | discriminate].
Defined.

Lemma main_body_no_state_witness :
  main_body 5 (request None (Some "node1") 300) (cluster_world "" "") st0
  = (st0, Ret tt).
Proof. apply main_body_no_state. intros target H. discriminate H. Defined.

Lemma main_body_cleanup_witness :
  main_body 5 (request (Some "cleanup") (Some "node1") 0)
    (cluster_world "Cluster name: ha" "") st0
  = (ran "pcs cluster status" (ran "pcs resource cleanup" st0),
     ExitJson true (OutState "online")).
Proof.
  apply (main_body_cleanup 5 (request (Some "cleanup") (Some "node1") 0)
           (cluster_world "Cluster name: ha" "") st0);
    [reflexivity | discriminate].
Defined.

Lemma main_body_cleanup_refused_witness :
  main_body 5 (request (Some "cleanup") None 300)
    (refusing "pcs resource cleanup" "no resources") st0
  = (ran "pcs resource cleanup" st0,
     FailJson (command_failed "pcs resource cleanup" "no resources")).
Proof.
  apply (main_body_cleanup_refused 5 (request (Some "cleanup") None 300)
           (refusing "pcs resource cleanup" "no resources") st0);
    reflexivity.
Defined.

Lemma main_body_node_empty_table_witness :
  main_body 5 (request (Some "online") (Some "node1") 300)
    (cluster_world "" "") st0
  = (ran "pcs cluster pcsd-status" st0, Ret tt).
Proof.
  apply (main_body_node_empty_table 5 _ _ st0 "online" "node1");
    [reflexivity | left; reflexivity | reflexivity | discriminate
    | reflexivity].
Defined.

Lemma main_body_node_first_row_matches_witness :
  main_body 5 (request (Some "online") (Some "node2") 300)
    (cluster_world "" node1_online) st0
  = (ran "pcs cluster pcsd-status" st0,
     ExitJson false
       (OutNodes [["  node1"; " Online"]; ["  node2"; " Offline"]])).
Proof.
  apply (main_body_node_first_row_matches 5 _ _ st0 "online" "node2");
    [reflexivity | left; reflexivity | reflexivity | discriminate
    | reflexivity | reflexivity].
Defined.

Lemma main_body_node_no_status_field_witness :
  main_body 5 (request (Some "online") (Some "node1") 300)
    (cluster_world "" "unable to get node status") st0
  = (ran "pcs cluster pcsd-status" st0, Raise IndexError).
Proof.
  apply (main_body_node_no_status_field 5
           (request (Some "online") (Some "node1") 300)
           (cluster_world "" "unable to get node status") st0
           "online" "node1")
    with (row := ["unable to get node status"]) (rest := []);
    [reflexivity | left; reflexivity | reflexivity | discriminate
    | reflexivity | reflexivity].
Defined.

Lemma main_body_node_first_row_differs_witness :
  main_body 5 (request (Some "online") (Some "node2") 2)
    (cluster_world "Cluster name: ha" node2_online) st0
  = (mkSt ["pcs cluster pcsd-status"; "pcs cluster status";
           "pcs cluster start"; "pcs cluster status";
           "pcs cluster pcsd-status"] 2,
     ExitJson true
       (OutNodes [["  node1"; " Offline"]; ["  node2"; " Online"]])).
Proof.
  destruct (main_body_node_first_row_differs 5
              (request (Some "online") (Some "node2") 2)
              (cluster_world "Cluster name: ha" node2_online) st0
              "online" "node2" eq_refl (or_introl eq_refl) eq_refl
              ltac:(discriminate)
              ["  node1"; " Offline"] [["  node2"; " Online"]]
              (mkSt ["pcs cluster pcsd-status"; "pcs cluster status";
                     "pcs cluster start"; "pcs cluster status"] 2)
              (Ret tt) eq_refl eq_refl eq_refl) as [_ H].
  apply H; [reflexivity | discriminate].
Defined.

Lemma set_cluster_unknown_state_witness :
  set_cluster 5 "standby" 300 true (cluster_world "" "") st0
  = (st0, Raise UnboundLocalError).
Proof. apply set_cluster_unknown_state; discriminate. Defined.


Lemma set_cluster_converges_witness :
  snd (set_cluster 5 "offline" 5 true stopping_world st0) = Ret tt.
Proof.
  apply (set_cluster_converges 5 "offline" 5 true stopping_world st0 3).
  - right; reflexivity.
  - intros n. do 3 (destruct n as [|n]; [discriminate|]).
    destruct n; discriminate.
  - lia.
  - intros n Hn. do 3 (destruct n as [|n]; [cbn in Hn; lia|]).
    destruct n; reflexivity.
  - intros i Hi. do 4 (destruct i as [|i]; [reflexivity|]). lia.
Defined.

Lemma set_cluster_no_time_to_poll_witness :
  exists s',
    set_cluster 5 "offline" 0 true (cluster_world "" "") st0
    = (s', FailJson (state_not_set "offline"))
    /\ last (trace s') "" = transition_cmd "offline" true.
Proof.
  apply (set_cluster_no_time_to_poll 5 "offline" 0 true
           (cluster_world "" "") st0).
  - right; reflexivity.
  - intros n; discriminate.
  - lia.
  - reflexivity.
Defined.

Lemma set_cluster_timeout_overflow_witness :
  exists s',
    set_cluster 5 "offline" (- 10 ^ 400) true (cluster_world "" "") st0
    = (s', Raise OverflowError)
    /\ last (trace s') "" = transition_cmd "offline" true
    /\ ticks s' = ticks st0 + 2.
Proof.
  apply (set_cluster_timeout_overflow 5 "offline" (- 10 ^ 400) true
           (cluster_world "" "") st0).
  - right; reflexivity.
  - intros n; discriminate.
  - lia.
  - vm_compute. reflexivity.
Defined.

Lemma set_node_commands_witness :
  exists j,
    trace (fst (set_node 5 "online" 2 true "all"
                  (cluster_world "" node3_online) st0))
    = (["pcs cluster pcsd-status all"; "pcs cluster start node1";
        "pcs cluster start node1 node2"]
       ++ repeat "pcs cluster pcsd-status all" j)%list.
Proof.
  apply (set_node_commands "online" (cluster_world "" node3_online)).
  - intros n cmd. cbn. destruct (cmd =? "pcs cluster status"); discriminate.
  - left; reflexivity.
  - reflexivity.
Defined.

Lemma set_node_polls_until_deadline_witness :
  set_node 5 "online" 3 true "all" (cluster_world "" nodes_online) st0
  = (mkSt ["pcs cluster pcsd-status all"; "pcs cluster pcsd-status all";
           "pcs cluster pcsd-status all"] 4,
     Ret tt).
Proof.
  apply (set_node_polls_until_deadline "online"
           (cluster_world "" nodes_online)) with (j := 2).
  - intros n cmd. cbn. destruct (cmd =? "pcs cluster status"); discriminate.
  - intros node n. unfold get_node_status_cmd.
    destruct (node =? "all"); split; (discriminate || reflexivity).
  - lia.
  - intros i Hi. do 2 (destruct i as [|i]; [reflexivity|]). lia.
  - reflexivity.
Defined.

Lemma restart_command_sequence_witness :
  main_body 5 (request (Some "restart") None 5) restart_world st0
  = (mkSt ["pcs cluster stop --force"; "pcs cluster status";
           "pcs cluster status"; "pcs cluster status"; "pcs";
           "pcs cluster start"; "pcs cluster status";
           "pcs cluster status"] 4,
     ExitJson true (OutState "online")).
Proof.
  apply (restart_command_sequence 5 (request (Some "restart") None 5)
           restart_world st0 eq_refl);
    try reflexivity; try discriminate; lia.
Defined.


Lemma get_cluster_status_long_output_witness :
  get_cluster_status
    (cluster_world (_PCS_CLUSTER_DOWN ++ PyStr.nl ++ "Cluster is down") "")
    st0
  = (ran "pcs cluster status" st0, Ret "online").
Proof.
  apply get_cluster_status_long_output. vm_compute. lia.
Defined.

Lemma main_body_node_probe_refused_witness :
  main_body 5 (request (Some "online") (Some "node1") 300)
    (refusing "pcs cluster pcsd-status" "unreachable") st0
  = (ran "pcs cluster pcsd-status" st0,
     FailJson (command_failed "pcs cluster pcsd-status" "unreachable")).
Proof.
  apply (main_body_node_probe_refused 5
           (request (Some "online") (Some "node1") 300)
           (refusing "pcs cluster pcsd-status" "unreachable") st0
           "online" "node1");
    [reflexivity | left; reflexivity | reflexivity | reflexivity].
Defined.
